(** * Training utilities of the point-cloud generator: [utils.py]

    A shallow embedding of [utils.py]: the nearest-point [projection], the
    optimizer and learning-rate scheduler factories, the snapshots written
    and loaded, the batches, the image board and the loggers.

    Conventions.
    - Floating-point numbers are read as exact reals ([R]); not-a-number and
      rounding are outside this model.
    - A dense array is a [tensor]: a shape and its elements in row-major
      order.
    - Module [torch] holds the names of the array library that [projection]
      uses, as the library has them.  The library binds no [repeat],
      [reduce_sum], [to_int32] or [gather_nd]: looking one of them up raises
      AttributeError, before the arguments of the call are evaluated.
    - A Python exception is a value of [error]; a call returns a [result]. *)

From Stdlib Require Import String Ascii.
From Stdlib Require Import List Arith Lia Bool.
From Stdlib Require Import Reals Lra.
From Stdlib Require Import ZArith DecimalString.
From Stdlib Require Import Permutation Sorted.
Import ListNotations.

Set Implicit Arguments.

(** ** Exceptions and results *)

Inductive error : Type :=
| DimOutOfRange       (* IndexError: dimension out of range *)
| TooManyIndices      (* IndexError: too many indices for tensor *)
| AttributeError (name : string)  (* module 'torch' has no attribute name *)
| TypeError           (* a required argument is missing *)
| BroadcastMismatch   (* RuntimeError: sizes differ at a non-singleton dim *)
| EmptyReduction      (* IndexError: argmin over a dimension of size 0 *)
| StackNoTensors      (* RuntimeError: stack expects a non-empty list *)
| StackMismatch       (* RuntimeError: stack expects equal shapes *)
| EmptySeries         (* IndexError: positional indexer is out-of-bounds *)
| InvalidValue        (* ValueError: invalid learning rate or weight decay *)
| UnboundLocalError (name : string).

Inductive result (A : Type) : Type :=
| Ok (a : A)
| Raise (e : error).

Arguments Ok {A} a.
Arguments Raise {A} e.

Definition bind {A B : Type} (c : result A) (k : A -> result B) : result B :=
  match c with
  | Ok a => k a
  | Raise e => Raise e
  end.

Notation "x <- c ;; k" := (bind c (fun x => k))
  (at level 61, c at next level, right associativity).

(** ** Dense arrays *)

Class Dflt (A : Type) : Type := dflt : A.
#[export] Instance Dflt_R : Dflt R := 0%R.
#[export] Instance Dflt_nat : Dflt nat := 0.

Record tensor (A : Type) : Type := mkTensor {
  shape : list nat;
  data : list A
}.

Definition numel (sh : list nat) : nat := fold_right Nat.mul 1 sh.

Definition rank {A} (t : tensor A) : nat := length (shape t).

(** All positions of a shape, in row-major order. *)
Fixpoint indices (sh : list nat) : list (list nat) :=
  match sh with
  | [] => [[]]
  | n :: sh' => flat_map (fun i => map (cons i) (indices sh')) (seq 0 n)
  end.

(** Row-major offset of a position. *)
Fixpoint offset (sh ix : list nat) : nat :=
  match sh, ix with
  | _ :: sh', i :: ix' => i * numel sh' + offset sh' ix'
  | _, _ => 0
  end.

Definition get {A} `{Dflt A} (t : tensor A) (ix : list nat) : A :=
  nth (offset (shape t) ix) (data t) dflt.

Definition tabulate {A} (sh : list nat) (f : list nat -> A) : tensor A :=
  mkTensor sh (map f (indices sh)).

Definition tmap {A B} (f : A -> B) (t : tensor A) : tensor B :=
  mkTensor (shape t) (map f (data t)).

Definition insert_at {A} (d : nat) (x : A) (l : list A) : list A :=
  firstn d l ++ x :: skipn d l.

Definition remove_at {A} (d : nat) (l : list A) : list A :=
  firstn d l ++ skipn (S d) l.

Fixpoint zipWith {A B C} (f : A -> B -> C) (l1 : list A) (l2 : list B) : list C :=
  match l1, l2 with
  | a :: l1', b :: l2' => f a b :: zipWith f l1' l2'
  | _, _ => []
  end.

(** ** The array library as [projection] meets it *)

Module torch.

(** [t.size(d)] *)
Definition size {A} (t : tensor A) (d : nat) : result nat :=
  match nth_error (shape t) d with
  | Some n => Ok n
  | None => Raise DimOutOfRange
  end.

(** [t[None, :, :]]: a new leading axis of size 1; the two slices need two
    axes to range over. *)
Definition index_None_All_All {A} (t : tensor A) : result (tensor A) :=
  match shape t with
  | _ :: _ :: _ => Ok (mkTensor (1 :: shape t) (data t))
  | _ => Raise TooManyIndices
  end.

(** [t[:, None, :]]: a new axis of size 1 after the first one. *)
Definition index_All_None_All {A} (t : tensor A) : result (tensor A) :=
  match shape t with
  | n :: (_ :: _) as rest => Ok (mkTensor (n :: 1 :: rest) (data t))
  | _ => Raise TooManyIndices
  end.

(** [torch.repeat(t, reps)]: the module has no attribute [repeat]; the
    lookup raises before [t] is evaluated. *)
Definition repeat {A} (t : result (tensor A)) (reps : list nat)
  : result (tensor A) :=
  Raise (AttributeError "repeat").

(** Broadcasting of two sizes, then of two shapes of equal length. *)
Definition broadcast_dim (a b : nat) : option nat :=
  if a =? b then Some a
  else if a =? 1 then Some b
  else if b =? 1 then Some a
  else None.

Fixpoint broadcast_shapes (s1 s2 : list nat) : option (list nat) :=
  match s1, s2 with
  | [], [] => Some []
  | a :: s1', b :: s2' =>
      match broadcast_dim a b, broadcast_shapes s1' s2' with
      | Some c, Some r => Some (c :: r)
      | _, _ => None
      end
  | _, _ => None
  end.

(** A shape padded on the left with 1s up to rank [r], and the position
    read in an operand of that shape for a position of the result. *)
Definition pad (r : nat) (sh : list nat) : list nat :=
  List.repeat 1 (r - length sh) ++ sh.

Definition expand_get {A} `{Dflt A} (t : tensor A) (r : nat) (ix : list nat) : A :=
  let sh := pad r (shape t) in
  get (mkTensor sh (data t))
      (zipWith (fun n i => if n =? 1 then 0 else i) sh ix).

Definition map2 {A B C} `{Dflt A} `{Dflt B} (f : A -> B -> C)
    (a : tensor A) (b : tensor B) : result (tensor C) :=
  let r := Nat.max (rank a) (rank b) in
  match broadcast_shapes (pad r (shape a)) (pad r (shape b)) with
  | Some sh => Ok (tabulate sh (fun ix => f (expand_get a r ix) (expand_get b r ix)))
  | None => Raise BroadcastMismatch
  end.

(** [a - b] *)
Definition sub (a b : tensor R) : result (tensor R) := map2 Rminus a b.

(** [t ** e] for a literal exponent *)
Definition pow (t : tensor R) (e : nat) : tensor R :=
  tmap (fun x => (x ^ e)%R) t.

Definition sqrt (t : tensor R) : tensor R := tmap R_sqrt.sqrt t.

(** The entries along [axis] at the position [ix] of the other axes. *)
Definition lane {A} `{Dflt A} (t : tensor A) (axis n : nat) (ix : list nat) : list A :=
  map (fun k => get t (insert_at axis k ix)) (seq 0 n).

(** [torch.reduce_sum(t, axis=axes)]: the module has no attribute
    [reduce_sum]. *)
Definition reduce_sum (t : tensor R) (axes : list nat) : result (tensor R) :=
  Raise (AttributeError "reduce_sum").

(** Left-to-right scan for the first minimum: the running best changes
    only for a strictly smaller entry. *)
Fixpoint argmin_from (best_i : nat) (best : R) (i : nat) (l : list R) : nat :=
  match l with
  | [] => best_i
  | x :: l' =>
      if Rlt_dec x best then argmin_from i x (S i) l'
      else argmin_from best_i best (S i) l'
  end.

Definition argmin_list (l : list R) : nat :=
  match l with
  | [] => 0
  | x :: l' => argmin_from 0 x 1 l'
  end.

(** [argmin(t, axis=axis)] *)
Definition argmin (t : tensor R) (axis : nat) : result (tensor nat) :=
  match nth_error (shape t) axis with
  | Some 0 => Raise EmptyReduction
  | Some n =>
      Ok (tabulate (remove_at axis (shape t))
            (fun ix => argmin_list (lane t axis n ix)))
  | None => Raise DimOutOfRange
  end.

(** [torch.to_int32(t)]: the module has no attribute [to_int32]; the lookup
    raises before [t] is evaluated. *)
Definition to_int32 (t : result (tensor nat)) : result (tensor nat) :=
  Raise (AttributeError "to_int32").

(** [torch.range(n)]: [range] takes a start and an end; called with one
    argument it raises TypeError. *)
Definition range (n : nat) : result (tensor nat) := Raise TypeError.

(** [stack(ts, axis=axis)] *)
Definition stack {A} `{Dflt A} (ts : list (tensor A)) (axis : nat)
  : result (tensor A) :=
  match ts with
  | [] => Raise StackNoTensors
  | t0 :: _ =>
      if forallb (fun t => if list_eq_dec Nat.eq_dec (shape t) (shape t0)
                           then true else false) ts then
        if axis <=? rank t0 then
          Ok (tabulate (insert_at axis (length ts) (shape t0))
                (fun ix => get (nth (nth axis ix 0) ts t0) (remove_at axis ix)))
        else Raise DimOutOfRange
      else Raise StackMismatch
  end.

(** [torch.gather_nd(params, ixs)]: the module has no attribute
    [gather_nd]; the lookup raises before the arguments are evaluated. *)
Definition gather_nd {A} (params : tensor A) (ixs : result (tensor nat))
  : result (tensor A) :=
  Raise (AttributeError "gather_nd").

End torch.

(** ** [projection] *)

(** compute projection from source to target *)
Definition projection (Vs Vt : tensor R) : result (tensor R * tensor R) :=
  VsN <- torch.size Vs 0 ;;
  VtN <- torch.size Vt 0 ;;
  Vt_rep <- torch.repeat (torch.index_None_All_All Vt) [VsN; 1; 1] ;;  (* [VsN,VtN,3] *)
  Vs_rep <- torch.repeat (torch.index_All_None_All Vs) [1; VtN; 1] ;;  (* [VsN,VtN,3] *)
  diff <- torch.sub Vt_rep Vs_rep ;;
  sums <- torch.reduce_sum (torch.pow diff 2) [2] ;;
  let dist := torch.sqrt sums in                                      (* [VsN,VtN] *)
  idx <- torch.to_int32 (torch.argmin dist 1) ;;
  proj <- torch.gather_nd Vt_rep
            (r <- torch.range VsN ;; torch.stack [r; idx] 1) ;;
  minDist <- torch.gather_nd dist
               (r <- torch.range VsN ;; torch.stack [r; idx] 1) ;;
  Ok (proj, minDist).

(** The [i]-th point of a point set of shape [[N; D]]. *)
Definition point (V : tensor R) (i : nat) : list R :=
  map (fun k => get V [i; k]) (seq 0 (nth 1 (shape V) 0)).

Definition sum_list (l : list R) : R := fold_left Rplus l 0%R.

Definition squared_distance (p q : list R) : R :=
  sum_list (zipWith (fun a b => ((a - b) ^ 2)%R) p q).

(** The points of a point set of shape [[N; D]], in order. *)
Definition points (V : tensor R) : list (list R) :=
  map (point V) (seq 0 (nth 0 (shape V) 0)).

(** A point set from its points, for [D]-dimensional points. *)
Definition point_set (D : nat) (ps : list (list R)) : tensor R :=
  mkTensor [length ps; D] (concat ps).

(** ** The projector as the specification words it

    For each source point: the squared Euclidean distance to every target
    point, the arg-min over the target index (the index of the minimum
    value, first occurrence on ties), the matched target point and the
    square root of its squared distance. *)

Module Spec.

Inductive failure : Type := DimensionMismatch | EmptyTarget.

Definition minimum (x : R) (l : list R) : R := fold_left Rmin l x.

Fixpoint first_index (v : R) (l : list R) : nat :=
  match l with
  | [] => 0
  | x :: l' => if Req_dec_T x v then 0 else S (first_index v l')
  end.

Definition arg_min (l : list R) : nat :=
  match l with
  | [] => 0
  | x :: l' => first_index (minimum x l') l
  end.

Definition same_dimension (ps : list (list R)) : bool :=
  match ps with
  | [] => true
  | p :: ps' => forallb (fun q => length q =? length p) ps'
  end.

Definition project (source target : list (list R))
  : failure + (list (list R) * list R) :=
  if negb (same_dimension (source ++ target)) then inl DimensionMismatch
  else match target with
       | [] => inl EmptyTarget
       | _ :: _ =>
           let j s := arg_min (map (squared_distance s) target) in
           inr (map (fun s => nth (j s) target []) source,
                map (fun s => R_sqrt.sqrt (squared_distance s (nth (j s) target [])))
                    source)
       end.

End Spec.

(** ** Strings: [str.lower] and the substring test [x in s]

    Names are ASCII; [lower] maps the letters A-Z and keeps every other
    character. *)

Definition lower_char (c : ascii) : ascii :=
  let n := nat_of_ascii c in
  if (65 <=? n) && (n <=? 90) then ascii_of_nat (n + 32) else c.

Fixpoint lower (s : string) : string :=
  match s with
  | EmptyString => EmptyString
  | String c s' => String (lower_char c) (lower s')
  end.

(** [x in s]: [x] occurs in [s] as a substring. *)
Fixpoint str_in (x s : string) : bool :=
  if String.prefix x s then true
  else match s with
       | EmptyString => false
       | String _ s' => str_in x s'
       end.

(** Reading a local variable that no branch has bound. *)
Definition read_local {A} (name : string) (v : option A) : result A :=
  match v with
  | Some a => Ok a
  | None => Raise (UnboundLocalError name)
  end.

(** ** The optimizer and scheduler factories, and [save_best_model] *)

Section Training.

(** The model, its parameters and its weights are objects of the
    surrounding framework; so is the rendering of numbers in text. *)
Variables Model Params Weights : Type.
Variable parameters : Model -> Params.
Variable state_dict : Model -> Weights.
Variable fmt_2e : R -> string.
Variable fmt_int : nat -> string.

Record config : Type := mkConfig {
  optim : string;
  lr : R;
  wd : R;
  trueWD : option R;
  lrSched : option string;
  lrStep : nat;
  lrGamma : R;
  TMax : nat;
  etaMin : R
}.

Inductive optimizer : Type :=
| Adam (params : Params) (lr weight_decay : R)
| SGD (params : Params) (lr weight_decay : R).

(** [optim.Adam(params, lr, weight_decay=w)] and
    [optim.SGD(params, lr, weight_decay=w)], for the parameters of a model
    that has some: the constructors refuse a negative learning rate and a
    negative weight decay with ValueError. *)
Definition optim_Adam (params : Params) (lr weight_decay : R) : result optimizer :=
  if Rlt_dec lr 0 then Raise InvalidValue
  else if Rlt_dec weight_decay 0 then Raise InvalidValue
  else Ok (Adam params lr weight_decay).

Definition optim_SGD (params : Params) (lr weight_decay : R) : result optimizer :=
  if Rlt_dec lr 0 then Raise InvalidValue
  else if Rlt_dec weight_decay 0 then Raise InvalidValue
  else Ok (SGD params lr weight_decay).

Inductive scheduler : Type :=
| StepLR (opt : optimizer) (step_size : nat) (gamma : R)
| ExponentialLR (opt : optimizer) (gamma : R)
| CosineAnnealingLR (opt : optimizer) (T_max : nat) (eta_min : R).

Definition newline : string := String (ascii_of_nat 10) EmptyString.

(** A call yields the lines it printed and its result.  A constructor that
    raises ends the call before [print(statement)]. *)
Definition make_optimizer (cfg : config) (model : Model)
  : list string * result optimizer :=
  let params := parameters model in
  match trueWD cfg with
  | Some twd =>
      let statement := "Use true (decouple with L2 regularization) weight decay "%string in
      let branch :=
        if str_in (lower (optim cfg)) "adam" then
          opt <- optim_Adam params (lr cfg) 0 ;;
          Ok ((statement ++ "with Adam optimizer (AdamW)")%string, Some opt)
        else if str_in (lower (optim cfg)) "sgd" then
          opt <- optim_SGD params (lr cfg) 0 ;;
          Ok ((statement ++ "with SGD optimizer (SGDW)")%string, Some opt)
        else Ok (statement, None) in
      match branch with
      | Raise e => ([], Raise e)
      | Ok (statement, opt) =>
          let statement :=
            (statement ++ newline ++ "Learning rate: " ++ fmt_2e (lr cfg)
               ++ ", weight decay: " ++ fmt_2e twd)%string in
          ([statement], read_local "opt" opt)
      end
  | None =>
      let statement := "Use default (coupled with L2 regularization) weight decay "%string in
      let branch :=
        if str_in (lower (optim cfg)) "adam" then
          opt <- optim_Adam params (lr cfg) (wd cfg) ;;
          Ok ((statement ++ "with Adam optimizer (Adam)")%string, Some opt)
        else if str_in (lower (optim cfg)) "sgd" then
          opt <- optim_SGD params (lr cfg) (wd cfg) ;;
          Ok ((statement ++ "with SGD optimizer (SGD)")%string, Some opt)
        else Ok (statement, None) in
      match branch with
      | Raise e => ([], Raise e)
      | Ok (statement, opt) =>
          let statement :=
            (statement ++ newline ++ "Learning rate: " ++ fmt_2e (lr cfg)
               ++ ", weight decay: " ++ fmt_2e (wd cfg))%string in
          ([statement], read_local "opt" opt)
      end
  end.

(** [not cfg.lrSched]: the setting is [None] or the empty string. *)
Definition falsy (s : option string) : bool :=
  match s with
  | None => true
  | Some EmptyString => true
  | Some (String _ _) => false
  end.

Definition make_lr_scheduler (cfg : config) (opt : optimizer)
  : list string * result (option scheduler) :=
  if falsy (lrSched cfg) then ([], Ok None)
  else
    let name := match lrSched cfg with Some s => lower s | None => EmptyString end in
    let '(statement, sched) :=
      if str_in name "step" then
        (Some ("Using StepLR with gamma: " ++ fmt_2e (lrGamma cfg)
                 ++ " and step size: " ++ fmt_int (lrStep cfg))%string,
         Some (StepLR opt (lrStep cfg) (lrGamma cfg)))
      else if str_in name "exponential" then
        (Some ("Using ExponentialLR with gamma: " ++ fmt_2e (lrGamma cfg))%string,
         Some (ExponentialLR opt (lrGamma cfg)))
      else if str_in name "cosine" then
        (Some ("Using CosineAnnealingLR with T_max: " ++ fmt_int (TMax cfg))%string,
         Some (CosineAnnealingLR opt (TMax cfg) (etaMin cfg)))
      else (None, None) in
    match read_local "statement" statement with
    | Raise e => ([], Raise e)
    | Ok st =>
        ([st], match read_local "sched" sched with
               | Ok sc => Ok (Some sc)
               | Raise e => Raise e
               end)
    end.

(** The history frame; [save_best_model] reads its [val_loss] column. *)
Record DataFrame : Type := mkFrame { val_loss : list R }.

(** [s.tail(k)] *)
Definition tail (k : nat) (s : list R) : list R := skipn (length s - k) s.

(** [s.iloc[0]] *)
Definition iloc0 (s : list R) : result R :=
  match s with
  | [] => Raise EmptySeries
  | x :: _ => Ok x
  end.

(** [s.min()]; of an empty series it is not a number, here 0. *)
Definition series_min (s : list R) : R :=
  match s with
  | [] => 0%R
  | x :: s' => fold_left Rmin s' x
  end.

(** The result lists the files written: path and content. *)
Definition save_best_model (model_path : string) (model : Model)
    (df_hist : DataFrame) : result (list (string * Weights)) :=
  latest <- iloc0 (tail 1 (val_loss df_hist)) ;;
  if Rle_dec latest (series_min (val_loss df_hist)) then
    Ok [((model_path ++ "/best.pth")%string, state_dict model)]
  else Ok [].

End Training.

(** ** Concrete point sets *)

(** source = [(0,0,0), (5,5,5)], target = [(0,0,1), (1,1,1), (10,10,10)] *)
Definition scenario_source : tensor R :=
  point_set 3 [[0; 0; 0]; [5; 5; 5]]%R.
Definition scenario_target : tensor R :=
  point_set 3 [[0; 0; 1]; [1; 1; 1]; [10; 10; 10]]%R.

(** source = [(0,0,0)], target = [(1,0,0), (-1,0,0)]: two equidistant points *)
Definition tie_source : tensor R := point_set 3 [[0; 0; 0]]%R.
Definition tie_target : tensor R := point_set 3 [[1; 0; 0]; [-1; 0; 0]]%R.



(** ** Concrete configurations and histories *)

(** An optimizer and a scheduler name that the factories do not know. *)
Definition cfg_unknown : config :=
  mkConfig "rmsprop" 1 0 None (Some "plateau"%string) 10 1 100 0.

(** The scheduler setting spelled as the string [none]. *)
Definition cfg_none : config :=
  mkConfig "adam" 1 0 None (Some "none"%string) 10 1 100 0.

Definition cfg_step : config :=
  mkConfig "adam" 1 0 None (Some "step"%string) 10 1 100 0.

Definition hist_improving : DataFrame := mkFrame [3; 2; 1]%R.

(** ** The utilities around files, batches and loggers

    These raise Python's own exceptions; a call returns [inl] of the
    exception or [inr] of its value. *)

Inductive exn : Type :=
| KeyError (key : string)
| FileNotFoundError (path : string)
| ZeroDivisionError
| ValueError.

(** [a % b] on integers: the remainder has the sign of [b]. *)
Definition py_mod (a b : Z) : exn + Z :=
  if (b =? 0)%Z then inl ZeroDivisionError else inr (a mod b)%Z.

(** An integer as an f-string renders it. *)
Definition str_of_int (z : Z) : string := NilZero.string_of_int (Z.to_int z).

(** A dictionary with string keys, and [d[k]]. *)
Definition dict (V : Type) : Type := string -> option V.

Definition getitem {V} (d : dict V) (k : string) : exn + V :=
  match d k with
  | Some v => inr v
  | None => inl (KeyError k)
  end.

(** [x in s] as a proposition: [x] is a contiguous part of [s]. *)
Definition is_substring (x s : string) : Prop :=
  exists pre post, s = (pre ++ x ++ post)%string.

Section Checkpoints.

Variables Model Weights : Type.
Variable state_dict : Model -> Weights.
Variable Structure_Generator : nat -> nat -> nat -> nat -> Model.
(** [model.load_state_dict(w)], for weights that fit the model. *)
Variable load_state_dict : Model -> Weights -> Model.

(** The result lists the files written: path and content. *)
Definition checkpoint_model (model_path : string) (model : Model)
    (epoch : Z) (saveEpoch : option Z) : exn + list (string * Weights) :=
  match saveEpoch with
  | None => inr []
  | Some k =>
      match py_mod (epoch + 1) k with
      | inl e => inl e
      | inr r =>
          if (r =? 0)%Z then
            inr [((model_path ++ "/" ++ str_of_int epoch ++ ".pth")%string,
                  state_dict model)]
          else inr []
      end
  end.

(** The weight files on disk, [torch.save] and [torch.load]. *)
Definition files : Type := dict Weights.

Definition torch_save (w : Weights) (path : string) (fs : files) : files :=
  fun q => if String.eqb q path then Some w else fs q.

Definition torch_load (fs : files) (path : string) : exn + Weights :=
  match fs path with
  | Some w => inr w
  | None => inl (FileNotFoundError path)
  end.

(** The disk after a list of writes, in order. *)
Definition after_writes (fs : files) (writes : list (string * Weights)) : files :=
  fold_left (fun f pw => torch_save (snd pw) (fst pw) f) writes fs.

(** The fields of [cfg] that [build_structure_generator] reads. *)
Record load_config : Type := mkLoadConfig {
  outViewN : nat;
  outW : nat;
  outH : nat;
  renderDepth : nat;
  loadPath : option string;
  loadEpoch : option Z
}.

(** A call yields the lines it printed and its result. *)
Definition build_structure_generator (cfg : load_config) (fs : files)
  : list string * (exn + Model) :=
  let model :=
    Structure_Generator (outViewN cfg) (outW cfg) (outH cfg) (renderDepth cfg) in
  let statement := "Build Structure Generator"%string in
  match loadPath cfg with
  | None => ([statement], inr model)
  | Some p =>
      let LOAD_PATH := ("models/" ++ p)%string in
      match loadEpoch cfg with
      | None =>
          match torch_load fs (LOAD_PATH ++ "/best.pth")%string with
          | inl e => ([], inl e)
          | inr w =>
              ([(statement ++ "and load best weights from " ++ LOAD_PATH)%string],
               inr (load_state_dict model w))
          end
      | Some ep =>
          match torch_load fs (LOAD_PATH ++ "/" ++ str_of_int ep ++ ".pth")%string with
          | inl e => ([], inl e)
          | inr w =>
              ([(statement ++ "and load weights epoch " ++ str_of_int ep
                   ++ " from " ++ LOAD_PATH)%string],
               inr (load_state_dict model w))
          end
      end
  end.

End Checkpoints.

Section Batches.

(** Tensors of a batch, devices, and the conversions [t.float()] and
    [t.to(device)] belong to the array library. *)
Variables Tensor Device : Type.
Variable float : Tensor -> Tensor.
Variable to : Tensor -> Device -> Tensor.

Definition unpack_batch_fixed (batch : dict Tensor) (device : Device)
  : exn + (Tensor * Tensor * Tensor) :=
  match getitem batch "inputImage" with
  | inl e => inl e
  | inr x =>
      let input_images := to (float x) device in
      match getitem batch "depthGT" with
      | inl e => inl e
      | inr y =>
          let depthGT := to (float y) device in
          match getitem batch "maskGT" with
          | inl e => inl e
          | inr z =>
              let maskGT := to (float z) device in
              inr (input_images, depthGT, maskGT)
          end
      end
  end.

Definition unpack_batch_novel (batch : dict Tensor) (device : Device)
  : exn + (Tensor * Tensor * Tensor * Tensor) :=
  match getitem batch "inputImage" with
  | inl e => inl e
  | inr x =>
      let input_images := to (float x) device in
      match getitem batch "targetTrans" with
      | inl e => inl e
      | inr t =>
          let renderTrans := to (float t) device in
          match getitem batch "depthGT" with
          | inl e => inl e
          | inr y =>
              let depthGT := to (float y) device in
              match getitem batch "maskGT" with
              | inl e => inl e
              | inr z =>
                  let maskGT := to (float z) device in
                  inr (input_images, renderTrans, depthGT, maskGT)
              end
          end
      end
  end.

End Batches.

Section Board.

Variable Image : Type.

(** What the summary writer has received: tag, image and step of each
    [add_image]. *)
Definition board : Type := list (string * Image * Z).

(** A statement on the writer: the board after it, and whether it raised. *)
Definition board_stmt : Type := board -> board * (exn + unit).

(** [writer.add_image(tag, images[key], epoch)] *)
Definition add_image_of (images : dict Image) (tag key : string) (epoch : Z)
  : board_stmt :=
  fun b =>
    match getitem images key with
    | inl e => (b, inl e)
    | inr img => (b ++ [(tag, img, epoch)], inr tt)
    end.

Definition then_ (s1 s2 : board_stmt) : board_stmt :=
  fun b =>
    match s1 b with
    | (b', inl e) => (b', inl e)
    | (b', inr _) => s2 b'
    end.

Definition write_on_board_images_stg1 (images : dict Image) (epoch : Z)
  : board_stmt :=
  then_ (add_image_of images "RGB" "RGB" epoch)
  (then_ (add_image_of images "depth/GT" "depthGT" epoch)
  (then_ (add_image_of images "depth/pred" "depth" epoch)
  (then_ (add_image_of images "mask/GT" "maskGT" epoch)
  (then_ (add_image_of images "mask/pred" "mask" epoch)
         (add_image_of images "depth*mask" "depth_mask" epoch))))).

Definition write_on_board_images_stg2 (images : dict Image) (epoch : Z)
  : board_stmt :=
  then_ (add_image_of images "RGB" "RGB" epoch)
  (then_ (add_image_of images "depth/GT" "depthGT" epoch)
  (then_ (add_image_of images "depth/pred" "depth" epoch)
  (then_ (add_image_of images "mask/GT" "maskGT" epoch)
  (then_ (add_image_of images "mask/pred" "mask" epoch)
         (add_image_of images "mask/rendered" "mask_rendered" epoch))))).

(** The tags and keys of the two functions, in the order of their
    statements. *)
Definition images_stg1 : list (string * string) :=
  [("RGB", "RGB"); ("depth/GT", "depthGT"); ("depth/pred", "depth");
   ("mask/GT", "maskGT"); ("mask/pred", "mask");
   ("depth*mask", "depth_mask")]%string.

Definition images_stg2 : list (string * string) :=
  [("RGB", "RGB"); ("depth/GT", "depthGT"); ("depth/pred", "depth");
   ("mask/GT", "maskGT"); ("mask/pred", "mask");
   ("mask/rendered", "mask_rendered")]%string.

(** The events for the longest run of pairs whose key is in [images], and
    the first key that is not. *)
Fixpoint events_until_missing (images : dict Image) (epoch : Z)
    (pairs : list (string * string)) : board * option string :=
  match pairs with
  | [] => ([], None)
  | (tag, key) :: rest =>
      match images key with
      | None => ([], Some key)
      | Some img =>
          let '(evs, missing) := events_until_missing images epoch rest in
          ((tag, img, epoch) :: evs, missing)
      end
  end.

End Board.

(** ** The process-wide logger

    [logging.getLogger("logger")] is one object per process: its level, the
    files of its own handlers, and whether a logger above it has a
    handler. *)

Record logger_state : Type := mkLogger {
  level : nat;
  handlers : list string;
  parent_has_handlers : bool
}.

Definition DEBUG : nat := 10.

(** [logger.hasHandlers()]: a handler on this logger or on one above it. *)
Definition hasHandlers (l : logger_state) : bool :=
  match handlers l with
  | [] => parent_has_handlers l
  | _ :: _ => true
  end.

(** The logger after the call, and the lines printed. *)
Definition make_logger (PATH : string) (l : logger_state)
  : logger_state * list string :=
  let l := mkLogger DEBUG (handlers l) (parent_has_handlers l) in
  let l :=
    if negb (hasHandlers l) then
      mkLogger (level l) (handlers l ++ [(PATH ++ ".log")%string])
               (parent_has_handlers l)
    else l in
  (l, ["Create logger"%string]).

(** The logger after one call per path, in order. *)
Definition make_logger_each (paths : list string) (l : logger_state)
  : logger_state :=
  fold_left (fun l p => fst (make_logger p l)) paths l.

(** ** The history frame and [log_hist] *)

(** A row of the history, with the columns [log_hist] shows. *)
Record hist_row : Type := mkRow {
  row_epoch : Z;
  row_train_loss : R;
  row_val_loss : R
}.

(** What [logger.debug] is called with: a frame of named rows, a frame of
    rows that hold a name and no value in any other column, or a text. *)
Inductive debug_message : Type :=
| Summary (rows : list (string * hist_row))
| SummaryWithoutValues (names : list string)
| Text (s : string).

(** [df.tail(k)] and [df.head(k)] *)
Definition frame_tail (k : nat) (df : list hist_row) : list hist_row :=
  skipn (length df - k) df.

Definition frame_head (k : nat) (df : list hist_row) : list hist_row :=
  firstn k df.

(** [df['name'] = names]: one name per row.  A frame without rows takes
    one row per name, with no value in its other columns; any other
    mismatch of lengths raises ValueError. *)
Definition set_name (names : list string) (df : list hist_row)
  : exn + debug_message :=
  match df with
  | [] => inr (SummaryWithoutValues names)
  | _ :: _ =>
      if length names =? length df then inr (Summary (combine names df))
      else inl ValueError
  end.

(** The [val_loss] column of a history, as [save_best_model] reads it. *)
Definition val_loss_frame (df : list hist_row) : DataFrame :=
  mkFrame (map row_val_loss df).

Section LogHist.

(** [df.sort_values('val_loss')] belongs to the frame library: it
    rearranges the rows into ascending [val_loss]; the order it gives to
    rows of equal [val_loss] is not fixed. *)
Variable sort_values : list hist_row -> list hist_row.

(** The result lists the calls of [logger.debug]. *)
Definition log_hist (df_hist : list hist_row) : exn + list debug_message :=
  let last := frame_tail 1 df_hist in
  let best := frame_head 1 (sort_values df_hist) in
  let summary := last ++ best in
  match set_name ["Last"; "Best"]%string summary with
  | inl e => inl e
  | inr summary => inr [summary; Text EmptyString]
  end.

End LogHist.

(** What is asked of a [sort_values]. *)
Definition sorts_by_val_loss (sort_values : list hist_row -> list hist_row) : Prop :=
  forall df,
    Permutation (sort_values df) df
    /\ StronglySorted (fun a b => (row_val_loss a <= row_val_loss b)%R)
         (sort_values df).

(** One such sort: insertion from the right. *)
Fixpoint insert_row (r : hist_row) (df : list hist_row) : list hist_row :=
  match df with
  | [] => [r]
  | x :: df' =>
      if Rle_dec (row_val_loss r) (row_val_loss x) then r :: x :: df'
      else x :: insert_row r df'
  end.

Definition insertion_sort_values (df : list hist_row) : list hist_row :=
  fold_right insert_row [] df.

(** ** [projection] as it runs *)

(** With two arrays of rank 1 or more, both [size(0)] calls return and the
    lookup of [torch.repeat] raises. *)
Lemma projection_raises (Vs Vt : tensor R) :
  rank Vs <> 0 -> rank Vt <> 0 ->
  projection Vs Vt = Raise (AttributeError "repeat").
Proof.
  destruct Vs as [[|a shs] ls], Vt as [[|b sht] lt]; unfold rank; cbn [shape length];
    intros Hs Ht; try congruence.
  reflexivity.
Qed.

Lemma projection_raises_matrices (Vs Vt : tensor R) n m D D' :
  shape Vs = [n; D] -> shape Vt = [m; D'] ->
  projection Vs Vt = Raise (AttributeError "repeat").
Proof.
  intros Hs Ht. apply projection_raises; unfold rank; rewrite ?Hs, ?Ht; discriminate.
Qed.

(** C1, at the code.  For non-empty source and target sets of the same
    dimension [projection] raises AttributeError at the lookup of
    [torch.repeat] and returns no matched points and no distances: what the
    claim says of [proj] and [minDist] is never computed. *)
Theorem projection_returns_no_match (Vs Vt : tensor R) (n m D : nat) :
  shape Vs = [n; D] -> shape Vt = [m; D] -> n <> 0 -> m <> 0 ->
  projection Vs Vt = Raise (AttributeError "repeat")
  /\ forall proj minDist, projection Vs Vt <> Ok (proj, minDist).
Proof.
  intros Hs Ht _ _.
  rewrite (@projection_raises_matrices Vs Vt n m D D Hs Ht).
  split; [reflexivity | discriminate].
Qed.

Lemma projection_returns_no_match_witness :
  projection scenario_source scenario_target = Raise (AttributeError "repeat")
  /\ forall proj minDist,
       projection scenario_source scenario_target <> Ok (proj, minDist).
Proof.
  apply (@projection_returns_no_match scenario_source scenario_target 2 3 3);
    [reflexivity | reflexivity | lia | lia].
Defined.

(** C2, at the code.  For source = [(0,0,0)] and
    target = [(1,0,0), (-1,0,0)] [projection] raises AttributeError at the
    lookup of [torch.repeat]; no arg-min is taken and no match is
    returned. *)
Theorem projection_tie_scenario :
  projection tie_source tie_target = Raise (AttributeError "repeat").
Proof. reflexivity. Qed.

(** C3, at the code.  For every source set, the empty one included, and
    every non-empty target set of the same dimension, [projection] raises
    AttributeError at the lookup of [torch.repeat]; it returns no
    sequences, of any length. *)
Theorem projection_fails_for_every_source (Vs Vt : tensor R) (n m D : nat) :
  shape Vs = [n; D] -> shape Vt = [m; D] -> m <> 0 ->
  projection Vs Vt = Raise (AttributeError "repeat").
Proof.
  intros Hs Ht _. now apply projection_raises_matrices with (n := n) (m := m) (D := D) (D' := D).
Qed.

Lemma projection_fails_for_every_source_witness :
  projection (point_set 3 []) scenario_target = Raise (AttributeError "repeat").
Proof.
  apply (@projection_fails_for_every_source (point_set 3 []) scenario_target 0 3 3);
    [reflexivity | reflexivity | lia].
Defined.





(** ** Properties of the factories and of [save_best_model] *)

Lemma fold_Rmin_le l : forall x,
  (fold_left Rmin l x <= x)%R
  /\ Forall (fun y => (fold_left Rmin l x <= y)%R) l.
Proof.
  induction l as [|y l IH]; intros x; simpl.
  - split; [apply Rle_refl | constructor].
  - destruct (IH (Rmin x y)) as [H1 H2]. split.
    + eapply Rle_trans; [exact H1 | apply Rmin_l].
    + constructor; [|assumption].
      eapply Rle_trans; [exact H1 | apply Rmin_r].
Qed.

Lemma fold_Rmin_In l : forall x, In (fold_left Rmin l x) (x :: l).
Proof.
  induction l as [|y l IH]; intros x; simpl; [now left|].
  destruct (IH (Rmin x y)) as [H|H].
  - unfold Rmin in H at 1. destruct (Rle_dec x y); rewrite <- H; auto.
  - auto.
Qed.

Lemma le_series_min (s : list R) (v : R) :
  s <> [] -> ((v <= series_min s)%R <-> forall y, In y s -> (v <= y)%R).
Proof.
  destruct s as [|x s]; [congruence|]. intros _. simpl.
  destruct (fold_Rmin_le s x) as [Hx Hs]. rewrite Forall_forall in Hs. split.
  - intros Hv y [<-|Hy]; [lra|]. specialize (Hs y Hy). lra.
  - intros Hall. apply Hall. apply fold_Rmin_In.
Qed.

Lemma tail_last (earlier : list R) (latest : R) :
  tail 1 (earlier ++ [latest]) = [latest].
Proof.
  unfold tail. rewrite length_app. simpl.
  replace (length earlier + 1 - 1) with (length earlier) by lia.
  rewrite skipn_app, skipn_all, Nat.sub_diag. reflexivity.
Qed.

(** The name tests accept any substring of the option, in any case. *)
Example lower_mixed_case : lower "AdaM" = "adam"%string.
Proof. reflexivity. Qed.

Example str_in_substring :
  str_in "sg" "sgd" = true /\ str_in "adamw" "adam" = false
  /\ str_in "none" "exponential" = false /\ str_in "e" "step" = true.
Proof. repeat split; reflexivity. Qed.

Section TrainingFacts.

Variables Model Params : Type.
Variable parameters : Model -> Params.
Variable fmt_2e : R -> string.
Variable fmt_int : nat -> string.

(** C7. An optimizer name that neither test recognizes leaves [opt]
    unbound, and [make_optimizer] raises where it returns [opt]; a
    non-empty scheduler name that no test recognizes leaves [sched] (and
    [statement]) unbound, and [make_lr_scheduler] raises instead of
    returning a scheduler. *)
Theorem unrecognized_names_unbound (cfg : config) (model : Model)
    (opt : optimizer Params) :
  (str_in (lower (optim cfg)) "adam" = false ->
   str_in (lower (optim cfg)) "sgd" = false ->
   snd (make_optimizer parameters fmt_2e cfg model)
   = Raise (UnboundLocalError "opt"))
  /\
  (forall s, lrSched cfg = Some s -> s <> EmptyString ->
     str_in (lower s) "step" = false ->
     str_in (lower s) "exponential" = false ->
     str_in (lower s) "cosine" = false ->
     make_lr_scheduler fmt_2e fmt_int cfg opt
     = ([], Raise (UnboundLocalError "statement"))).
Proof using Type.
  split.
  - intros Ha Hs. unfold make_optimizer. rewrite Ha, Hs.
    destruct (trueWD cfg); reflexivity.
  - intros s Hcfg Hne H1 H2 H3. unfold make_lr_scheduler. rewrite Hcfg.
    destruct s as [|c s]; [congruence|]. cbn [falsy].
    rewrite H1, H2, H3. reflexivity.
Qed.

(** C8, as the code has it.  For the settings step, exponential and
    cosine [make_lr_scheduler] returns a StepLR, an ExponentialLR and a
    CosineAnnealingLR; it returns no scheduler when the setting is absent
    or empty. *)
Theorem make_lr_scheduler_recognized (cfg : config) (opt : optimizer Params) :
  (lrSched cfg = Some "step"%string ->
   snd (make_lr_scheduler fmt_2e fmt_int cfg opt)
   = Ok (Some (StepLR opt (lrStep cfg) (lrGamma cfg))))
  /\ (lrSched cfg = Some "exponential"%string ->
      snd (make_lr_scheduler fmt_2e fmt_int cfg opt)
      = Ok (Some (ExponentialLR opt (lrGamma cfg))))
  /\ (lrSched cfg = Some "cosine"%string ->
      snd (make_lr_scheduler fmt_2e fmt_int cfg opt)
      = Ok (Some (CosineAnnealingLR opt (TMax cfg) (etaMin cfg))))
  /\ (lrSched cfg = None \/ lrSched cfg = Some EmptyString ->
      make_lr_scheduler fmt_2e fmt_int cfg opt = ([], Ok None)).
Proof using Type.
  unfold make_lr_scheduler. repeat split.
  - intros ->. reflexivity.
  - intros ->. reflexivity.
  - intros ->. reflexivity.
  - intros [-> | ->]; reflexivity.
Qed.

End TrainingFacts.


Lemma unrecognized_names_unbound_witness :
  snd (make_optimizer (fun _ : unit => tt) (fun _ => EmptyString) cfg_unknown tt)
  = Raise (UnboundLocalError "opt")
  /\ make_lr_scheduler (fun _ => EmptyString) (fun _ => EmptyString) cfg_unknown
       (SGD tt 1 0)
     = ([], Raise (UnboundLocalError "statement")).
Proof.
  destruct (@unrecognized_names_unbound unit unit (fun _ => tt)
              (fun _ => EmptyString) (fun _ => EmptyString)
              cfg_unknown tt (SGD tt 1 0)) as [Hopt Hsched].
  split.
  - apply Hopt; reflexivity.
  - apply (Hsched "plateau"%string);
      [reflexivity | discriminate | reflexivity | reflexivity | reflexivity].
Defined.

Lemma make_lr_scheduler_recognized_witness :
  snd (make_lr_scheduler (fun _ => EmptyString) (fun _ => EmptyString) cfg_step
         (SGD tt 1 0))
  = Ok (Some (StepLR (SGD tt 1 0) 10 1)).
Proof.
  apply (proj1 (@make_lr_scheduler_recognized unit
                  (fun _ => EmptyString) (fun _ => EmptyString)
                  cfg_step (SGD tt 1 0))).
  reflexivity.
Defined.

(** C8 as stated fails: the setting spelled [none] is a name like any other
    that no test recognizes, and the call raises. *)
Lemma make_lr_scheduler_none_string_raises :
  lrSched cfg_none = Some "none"%string /\
  make_lr_scheduler (fun _ => EmptyString) (fun _ => EmptyString) cfg_none
    (SGD tt 1 0)
  = ([], Raise (UnboundLocalError "statement")).
Proof. split; reflexivity. Qed.


(** ** [projection] and the specified projector *)

Lemma points_eq (V : tensor R) n D (H : shape V = [n; D]) :
  points V = map (point V) (seq 0 n).
Proof. unfold points. now rewrite H. Qed.

Lemma length_point (V : tensor R) n D i (H : shape V = [n; D]) :
  length (point V i) = D.
Proof.
  unfold point. rewrite H. cbn [nth].
  rewrite length_map. apply length_seq.
Qed.

Lemma same_dimension_all D ps :
  Forall (fun q : list R => length q = D) ps -> Spec.same_dimension ps = true.
Proof.
  intros H. destruct ps as [|p ps]; [reflexivity|]. simpl.
  inversion H as [|? ? Hp Hps]; subst.
  apply forallb_forall. intros q Hq. rewrite Forall_forall in Hps.
  apply Nat.eqb_eq. now apply Hps.
Qed.

(** C10, at the code.  [projection] reaches neither the square root nor
    the arg-min: for point sets of the same dimension and a non-empty target
    it raises AttributeError at the lookup of [torch.repeat], where the
    specified projector returns a match and a distance for every source
    point.  The code does not refine it. *)
Theorem projection_stops_before_arg_min (Vs Vt : tensor R) (n m D : nat) :
  shape Vs = [n; D] -> shape Vt = [m; D] -> m <> 0 ->
  projection Vs Vt = Raise (AttributeError "repeat")
  /\ exists matched distances,
       Spec.project (points Vs) (points Vt) = inr (matched, distances)
       /\ length matched = n /\ length distances = n.
Proof.
  intros Hs Ht Hm. split.
  { now apply projection_raises_matrices with (n := n) (m := m) (D := D) (D' := D). }
  unfold Spec.project. rewrite (@same_dimension_all D).
  2:{ apply Forall_forall. intros q Hq. apply in_app_or in Hq as [Hq | Hq];
      [rewrite (@points_eq Vs n D Hs) in Hq | rewrite (@points_eq Vt m D Ht) in Hq];
      apply in_map_iff in Hq as (k & <- & _);
      eauto using length_point. }
  cbn [negb]. destruct (points Vt) as [|q qs] eqn:Hpts.
  { exfalso. apply (f_equal (@length _)) in Hpts.
    rewrite (@points_eq Vt m D Ht), length_map, length_seq in Hpts.
    simpl in Hpts. lia. }
  eexists. eexists. split; [reflexivity|].
  rewrite !length_map, (@points_eq Vs n D Hs), length_map, length_seq.
  split; reflexivity.
Qed.

Lemma projection_stops_before_arg_min_witness :
  projection scenario_source scenario_target = Raise (AttributeError "repeat")
  /\ exists matched distances,
       Spec.project (points scenario_source) (points scenario_target)
       = inr (matched, distances)
       /\ length matched = 2 /\ length distances = 2.
Proof.
  apply (@projection_stops_before_arg_min scenario_source scenario_target 2 3 3);
    [reflexivity | reflexivity | lia].
Defined.

(** X5. [projection] returns a result for no input.  An input of rank 0
    raises IndexError at its [size(0)]; every other pair of inputs, whatever
    their ranks, shapes and elements, raises AttributeError at the lookup of
    [torch.repeat]. *)
Theorem projection_never_returns (Vs Vt : tensor R) :
  projection Vs Vt
  = Raise (if (rank Vs =? 0) || (rank Vt =? 0) then DimOutOfRange
           else AttributeError "repeat").
Proof.
  destruct Vs as [[|a shs] ls], Vt as [[|b sht] lt]; reflexivity.
Qed.

(** ** The name tests of the factories *)

Lemma prefix_app (x s : string) :
  String.prefix x s = true <-> exists post, s = (x ++ post)%string.
Proof.
  revert s. induction x as [|c x IH]; intros [|c' s]; simpl.
  - split; [intros _; now exists EmptyString | reflexivity].
  - split; [intros _; now exists (String c' s) | reflexivity].
  - split; [discriminate | intros [post H]; discriminate].
  - destruct (Ascii.ascii_dec c c') as [<- | Hne].
    + rewrite IH. split; intros [post H]; exists post;
        [now rewrite H | now injection H].
    + split; [discriminate | intros [post H]; injection H; congruence].
Qed.

Lemma str_in_head (x s : string) :
  str_in x s
  = if String.prefix x s then true
    else match s with
         | EmptyString => false
         | String _ s' => str_in x s'
         end.
Proof. destruct s; reflexivity. Qed.

(** The test [x in s] holds exactly when [x] is a contiguous part of [s]. *)
Lemma str_in_correct (x s : string) : str_in x s = true <-> is_substring x s.
Proof.
  unfold is_substring. split.
  - induction s as [|c s IH]; rewrite str_in_head;
      destruct (String.prefix x _) eqn:Hp.
    + intros _. apply prefix_app in Hp as [post Hp]. now exists EmptyString, post.
    + discriminate.
    + intros _. apply prefix_app in Hp as [post Hp]. now exists EmptyString, post.
    + intros H. destruct (IH H) as (pre & post & ->).
      now exists (String c pre), post.
  - intros (pre & post & ->). induction pre as [|c pre IH].
    + rewrite str_in_head.
      replace (String.prefix x (EmptyString ++ x ++ post)) with true; [reflexivity|].
      symmetry. apply prefix_app. now exists post.
    + rewrite str_in_head. cbn [append]. rewrite IH.
      now destruct (String.prefix x (String c (pre ++ x ++ post))).
Qed.

Lemma str_in_false (x s : string) : str_in x s = false <-> ~ is_substring x s.
Proof.
  rewrite <- str_in_correct. destruct (str_in x s); split; congruence.
Qed.

(** X7. [make_optimizer] goes by substrings and by order.  With a learning
    rate and a weight decay that are not negative, a name that is,
    lower-cased, a contiguous part of adam (the empty name included) gives
    Adam, and otherwise a part of sgd gives SGD; the optimizer gets [cfg.lr],
    and as weight decay 0 when [cfg.trueWD] is set and [cfg.wd] otherwise;
    one statement is printed.  With a negative learning rate or weight
    decay the constructor of a recognized name raises ValueError and nothing
    is printed.  Any other name has its statement printed and then raises at
    [return opt]. *)
Theorem make_optimizer_characterised (Model Params : Type)
    (parameters : Model -> Params) (fmt_2e : R -> string)
    (cfg : config) (model : Model) :
  let name := lower (optim cfg) in
  let decay := match trueWD cfg with Some _ => 0%R | None => wd cfg end in
  let run := make_optimizer parameters fmt_2e cfg model in
  ((0 <= lr cfg)%R -> (0 <= decay)%R ->
   (is_substring name "adam" ->
    snd run = Ok (Adam (parameters model) (lr cfg) decay)
    /\ length (fst run) = 1)
   /\ (~ is_substring name "adam" -> is_substring name "sgd" ->
       snd run = Ok (SGD (parameters model) (lr cfg) decay)
       /\ length (fst run) = 1))
  /\ ((lr cfg < 0)%R \/ (decay < 0)%R ->
      is_substring name "adam" \/ is_substring name "sgd" ->
      run = ([], Raise InvalidValue))
  /\ (~ is_substring name "adam" -> ~ is_substring name "sgd" ->
      snd run = Raise (UnboundLocalError "opt") /\ length (fst run) = 1).
Proof.
  intros name decay run. subst name decay run.
  unfold make_optimizer, optim_Adam, optim_SGD.
  rewrite <- !str_in_false, <- !str_in_correct.
  destruct (trueWD cfg);
    destruct (str_in (lower (optim cfg)) "adam");
    destruct (str_in (lower (optim cfg)) "sgd");
    repeat match goal with
           | |- context [Rlt_dec ?a ?b] => destruct (Rlt_dec a b)
           end;
    cbn [bind fst snd length read_local]; repeat split;
    try congruence; intros; try lra; try tauto.
Qed.

Lemma make_optimizer_characterised_witness :
  snd (make_optimizer (fun _ : unit => tt) (fun _ => EmptyString)
         (mkConfig EmptyString 1 5 (Some 2%R) None 10 1 100 0) tt)
  = Ok (Adam tt 1 0)
  /\ make_optimizer (fun _ : unit => tt) (fun _ => EmptyString)
       (mkConfig "SG" (-1) 5 None None 10 1 100 0) tt
     = ([], Raise InvalidValue).
Proof.
  split.
  - apply (@make_optimizer_characterised unit unit (fun _ => tt)
             (fun _ => EmptyString)
             (mkConfig EmptyString 1 5 (Some 2%R) None 10 1 100 0) tt);
      [simpl; lra | simpl; lra |].
    exists EmptyString, "adam"%string. reflexivity.
  - apply (@make_optimizer_characterised unit unit (fun _ => tt)
             (fun _ => EmptyString)
             (mkConfig "SG" (-1) 5 None None 10 1 100 0) tt).
    + left. simpl. lra.
    + right. exists EmptyString, "d"%string. reflexivity.
Defined.

(** X8. [make_lr_scheduler] goes by substrings and by order as well: a
    non-empty setting that is, lower-cased, a contiguous part of step gives
    StepLR; otherwise a part of exponential gives ExponentialLR; otherwise a
    part of cosine gives CosineAnnealingLR, each built on the optimizer
    passed in and announced by one printed line; any other non-empty setting
    raises before anything is printed. *)
Theorem make_lr_scheduler_characterised (Params : Type)
    (fmt_2e : R -> string) (fmt_int : nat -> string)
    (cfg : config) (opt : optimizer Params) (s : string) :
  lrSched cfg = Some s -> s <> EmptyString ->
  let name := lower s in
  let run := make_lr_scheduler fmt_2e fmt_int cfg opt in
  (is_substring name "step" ->
   snd run = Ok (Some (StepLR opt (lrStep cfg) (lrGamma cfg)))
   /\ length (fst run) = 1) /\
  (~ is_substring name "step" -> is_substring name "exponential" ->
   snd run = Ok (Some (ExponentialLR opt (lrGamma cfg)))
   /\ length (fst run) = 1) /\
  (~ is_substring name "step" -> ~ is_substring name "exponential" ->
   is_substring name "cosine" ->
   snd run = Ok (Some (CosineAnnealingLR opt (TMax cfg) (etaMin cfg)))
   /\ length (fst run) = 1) /\
  (~ is_substring name "step" -> ~ is_substring name "exponential" ->
   ~ is_substring name "cosine" ->
   run = ([], Raise (UnboundLocalError "statement"))).
Proof.
  intros Hcfg Hne name run. subst name run. unfold make_lr_scheduler.
  rewrite Hcfg. destruct s as [|c s]; [congruence|]. cbn [falsy].
  rewrite <- !str_in_false, <- !str_in_correct.
  destruct (str_in (lower (String c s)) "step");
    destruct (str_in (lower (String c s)) "exponential");
    destruct (str_in (lower (String c s)) "cosine");
    cbn [fst snd length read_local]; repeat split; congruence.
Qed.

Lemma make_lr_scheduler_characterised_witness :
  snd (make_lr_scheduler (fun _ => EmptyString) (fun _ => EmptyString)
         (mkConfig "adam" 1 0 None (Some "E"%string) 10 1 100 0) (SGD tt 1 0))
  = Ok (Some (StepLR (SGD tt 1 0) 10 1))
  /\ snd (make_lr_scheduler (fun _ => EmptyString) (fun _ => EmptyString)
            (mkConfig "adam" 1 0 None (Some "Cos"%string) 10 1 100 0) (SGD tt 1 0))
     = Ok (Some (CosineAnnealingLR (SGD tt 1 0) 100 0)).
Proof.
  split.
  - apply (@make_lr_scheduler_characterised unit
             (fun _ => EmptyString) (fun _ => EmptyString)
             (mkConfig "adam" 1 0 None (Some "E"%string) 10 1 100 0)
             (SGD tt 1 0) "E"%string);
      [reflexivity | discriminate |].
    exists "st"%string, "p"%string. reflexivity.
  - apply (@make_lr_scheduler_characterised unit
             (fun _ => EmptyString) (fun _ => EmptyString)
             (mkConfig "adam" 1 0 None (Some "Cos"%string) 10 1 100 0)
             (SGD tt 1 0) "Cos"%string);
      [reflexivity | discriminate | | |].
    + apply str_in_false. reflexivity.
    + apply str_in_false. reflexivity.
    + exists EmptyString, "ine"%string. reflexivity.
Defined.

(** ** Checkpoints: [checkpoint_model] and [build_structure_generator] *)

Lemma append_cancel_l (a b c : string) :
  (a ++ b = a ++ c)%string -> b = c.
Proof.
  induction a as [|x a IH]; simpl; intros H; [assumption|].
  injection H as H. now apply IH.
Qed.

Lemma str_of_int_not_best (z : Z) (rest : string) :
  (str_of_int z ++ rest)%string <> "best.pth"%string.
Proof.
  unfold str_of_int. destruct (Z.to_int z) as [d | d]; simpl.
  - destruct d; simpl; discriminate.
  - discriminate.
Qed.

Lemma next_quotient (a k : Z) :
  (0 <= a)%Z -> (0 < k)%Z ->
  ((a + 1) / k = a / k + (if (a + 1) mod k =? 0 then 1 else 0))%Z.
Proof.
  intros Ha Hk. destruct (Z.eqb_spec ((a + 1) mod k) 0) as [H0 | H0];
    Z.to_euclidean_division_equations; nia.
Qed.

(** X9. [checkpoint_model] writes [<model_path>/<epoch>.pth] exactly when
    [saveEpoch] divides [epoch + 1]; it writes nothing when [saveEpoch] is
    [None], and raises ZeroDivisionError when [saveEpoch] is 0. *)
Theorem checkpoint_model_when (Model Weights : Type)
    (state_dict : Model -> Weights)
    (model_path : string) (model : Model) (epoch : Z) :
  checkpoint_model state_dict model_path model epoch None = inr []
  /\ checkpoint_model state_dict model_path model epoch (Some 0%Z)
     = inl ZeroDivisionError
  /\ forall k, k <> 0%Z ->
       ((k | epoch + 1)%Z ->
        checkpoint_model state_dict model_path model epoch (Some k)
        = inr [((model_path ++ "/" ++ str_of_int epoch ++ ".pth")%string,
                state_dict model)])
       /\ (~ (k | epoch + 1)%Z ->
           checkpoint_model state_dict model_path model epoch (Some k) = inr []).
Proof.
  split; [reflexivity|]. split; [reflexivity|].
  intros k Hk. unfold checkpoint_model, py_mod.
  destruct (Z.eqb_spec k 0) as [|_]; [contradiction|].
  rewrite <- (Z.mod_divide _ _ Hk).
  destruct (Z.eqb_spec ((epoch + 1) mod k) 0); split; intros H;
    (reflexivity || contradiction).
Qed.

Lemma checkpoint_model_when_witness :
  checkpoint_model (fun _ : unit => tt) "models/run" tt 9%Z (Some 5%Z)
  = inr [("models/run/9.pth"%string, tt)]
  /\ checkpoint_model (fun _ : unit => tt) "models/run" tt 8%Z (Some 5%Z)
     = inr [].
Proof.
  destruct (@checkpoint_model_when unit unit (fun _ => tt) "models/run"%string tt 9%Z)
    as (_ & _ & H9).
  destruct (@checkpoint_model_when unit unit (fun _ => tt) "models/run"%string tt 8%Z)
    as (_ & _ & H8).
  split.
  - apply (H9 5%Z); [lia|]. exists 2%Z. reflexivity.
  - apply (H8 5%Z); [lia|]. intros [q Hq]. lia.
Defined.

(** X10. Over the epochs 0, ..., E-1 of a run, [checkpoint_model] with a
    positive [saveEpoch] k writes a snapshot at exactly E / k of them
    (rounded down). *)
Theorem checkpoint_model_count (Model Weights : Type)
    (state_dict : Model -> Weights)
    (model_path : string) (model : Model) (E : nat) (k : Z) :
  (0 < k)%Z ->
  length
    (filter
       (fun e =>
          match checkpoint_model state_dict model_path model
                  (Z.of_nat e) (Some k) with
          | inr (_ :: _) => true
          | _ => false
          end)
       (seq 0 E))
  = Z.to_nat (Z.of_nat E / k).
Proof.
  intros Hk. induction E as [|E IH]; [reflexivity|].
  rewrite seq_S, filter_app, length_app, IH. cbn [filter Nat.add].
  replace (Z.of_nat (S E)) with (Z.of_nat E + 1)%Z by lia.
  rewrite (next_quotient (a := Z.of_nat E)) by lia.
  unfold checkpoint_model, py_mod.
  destruct (Z.eqb_spec k 0) as [|_]; [lia|].
  pose proof (Z.div_pos (Z.of_nat E) k) as Hq.
  destruct (Z.eqb_spec ((Z.of_nat E + 1) mod k) 0); cbn [length]; lia.
Qed.

Lemma checkpoint_model_count_witness :
  length
    (filter
       (fun e =>
          match checkpoint_model (fun _ : unit => tt) "models/run" tt
                  (Z.of_nat e) (Some 3%Z) with
          | inr (_ :: _) => true
          | _ => false
          end)
       (seq 0 10))
  = Z.to_nat (Z.of_nat 10 / 3).
Proof.
  apply (@checkpoint_model_count unit unit (fun _ => tt) "models/run"%string tt 10 3%Z).
  lia.
Defined.

(** X11. A periodic checkpoint never touches the best snapshot: the file
    [checkpoint_model] writes is not [<model_path>/best.pth], so
    [best.pth] holds after the writes what it held before. *)
Theorem checkpoint_model_keeps_best (Model Weights : Type)
    (state_dict : Model -> Weights)
    (model_path : string) (model : Model) (epoch : Z) (saveEpoch : option Z)
    (written : list (string * Weights)) (fs : files Weights) :
  checkpoint_model state_dict model_path model epoch saveEpoch = inr written ->
  after_writes fs written (model_path ++ "/best.pth")%string
  = fs (model_path ++ "/best.pth")%string.
Proof.
  unfold checkpoint_model. destruct saveEpoch as [k|].
  - destruct (py_mod (epoch + 1) k) as [e | r]; [discriminate|].
    destruct (r =? 0)%Z; intros [= <-]; [|reflexivity].
    unfold after_writes, torch_save. cbn [fold_left fst snd].
    match goal with
    | |- context [String.eqb ?a ?b] =>
        destruct (String.eqb_spec a b) as [Heq|]; [|reflexivity]
    end.
    exfalso. apply append_cancel_l in Heq. injection Heq as Heq.
    symmetry in Heq. now apply str_of_int_not_best in Heq.
  - intros [= <-]. reflexivity.
Qed.

Lemma checkpoint_model_keeps_best_witness :
  after_writes (fun _ => Some 7) [("models/run/9.pth"%string, 0)]
    ("models/run" ++ "/best.pth")%string
  = Some 7.
Proof.
  apply (@checkpoint_model_keeps_best unit nat (fun _ => 0)
           "models/run"%string tt 9%Z (Some 5%Z)).
  reflexivity.
Defined.

Lemma load_after_save (Weights : Type) (fs : files Weights) path w :
  torch_load (after_writes fs [(path, w)]) path = inr w.
Proof.
  unfold torch_load, after_writes, torch_save. cbn [fold_left fst snd].
  now rewrite String.eqb_refl.
Qed.

Lemma save_best_improving (Model Weights : Type)
    (state_dict : Model -> Weights) (model_path : string) (model : Model) :
  save_best_model state_dict model_path model hist_improving
  = Ok [((model_path ++ "/best.pth")%string, state_dict model)].
Proof.
  unfold save_best_model, hist_improving.
  cbn [val_loss tail length Nat.sub skipn iloc0 bind series_min fold_left].
  destruct (Rle_dec _ _) as [|Hn]; [reflexivity|].
  exfalso. apply Hn. unfold Rmin. repeat destruct (Rle_dec _ _); lra.
Qed.

(** X12. What [save_best_model] saves under [models/<p>],
    [build_structure_generator] loads back for [loadPath = p] and no
    [loadEpoch]: the model it returns is the new generator with the saved
    weights loaded. *)
Theorem save_best_then_build (Model Weights : Type)
    (state_dict : Model -> Weights)
    (Structure_Generator : nat -> nat -> nat -> nat -> Model)
    (load_state_dict : Model -> Weights -> Model)
    (p : string) (model : Model) (df_hist : DataFrame)
    (written : list (string * Weights)) (fs : files Weights)
    (cfg : load_config) :
  save_best_model state_dict ("models/" ++ p) model df_hist = Ok written ->
  written <> [] ->
  loadPath cfg = Some p -> loadEpoch cfg = None ->
  snd (build_structure_generator Structure_Generator load_state_dict cfg
         (after_writes fs written))
  = inr (load_state_dict
           (Structure_Generator (outViewN cfg) (outW cfg) (outH cfg)
              (renderDepth cfg))
           (state_dict model)).
Proof.
  intros Hsave Hne Hp He. unfold save_best_model in Hsave.
  destruct (iloc0 (tail 1 (val_loss df_hist))) as [latest | e];
    cbn [bind] in Hsave; [|discriminate].
  destruct (Rle_dec latest (series_min (val_loss df_hist)));
    injection Hsave as <-; [|congruence].
  unfold build_structure_generator. rewrite Hp, He.
  now rewrite load_after_save.
Qed.

Lemma save_best_then_build_witness :
  snd (build_structure_generator (fun _ _ _ _ => 0) (fun _ w => w)
         (mkLoadConfig 8 128 128 100 (Some "run"%string) None)
         (after_writes (fun _ => None) [("models/run/best.pth"%string, 5)]))
  = inr 5.
Proof.
  apply (@save_best_then_build nat nat (fun m => m) (fun _ _ _ _ => 0)
           (fun _ w => w) "run"%string 5 hist_improving
           [("models/run/best.pth"%string, 5)] (fun _ => None)
           (mkLoadConfig 8 128 128 100 (Some "run"%string) None));
    [ | discriminate | reflexivity | reflexivity].
  exact (@save_best_improving nat nat (fun m => m) "models/run"%string 5).
Defined.

(** X13. What [checkpoint_model] saves under [models/<p>] at an epoch,
    [build_structure_generator] loads back for [loadPath = p] and that
    [loadEpoch]. *)
Theorem checkpoint_then_build (Model Weights : Type)
    (state_dict : Model -> Weights)
    (Structure_Generator : nat -> nat -> nat -> nat -> Model)
    (load_state_dict : Model -> Weights -> Model)
    (p : string) (model : Model) (epoch : Z) (saveEpoch : option Z)
    (written : list (string * Weights)) (fs : files Weights)
    (cfg : load_config) :
  checkpoint_model state_dict ("models/" ++ p) model epoch saveEpoch
  = inr written ->
  written <> [] ->
  loadPath cfg = Some p -> loadEpoch cfg = Some epoch ->
  snd (build_structure_generator Structure_Generator load_state_dict cfg
         (after_writes fs written))
  = inr (load_state_dict
           (Structure_Generator (outViewN cfg) (outW cfg) (outH cfg)
              (renderDepth cfg))
           (state_dict model)).
Proof.
  intros Hsave Hne Hp He. unfold checkpoint_model in Hsave.
  destruct saveEpoch as [k|]; [|injection Hsave as <-; congruence].
  destruct (py_mod (epoch + 1) k) as [e | r]; [discriminate|].
  destruct (r =? 0)%Z; injection Hsave as <-; [|congruence].
  unfold build_structure_generator. rewrite Hp, He.
  now rewrite load_after_save.
Qed.

Lemma checkpoint_then_build_witness :
  snd (build_structure_generator (fun _ _ _ _ => 0) (fun _ w => w)
         (mkLoadConfig 8 128 128 100 (Some "run"%string) (Some 9%Z))
         (after_writes (fun _ => None) [("models/run/9.pth"%string, 5)]))
  = inr 5.
Proof.
  apply (@checkpoint_then_build nat nat (fun m => m) (fun _ _ _ _ => 0)
           (fun _ w => w) "run"%string 5 9%Z (Some 5%Z)
           [("models/run/9.pth"%string, 5)] (fun _ => None)
           (mkLoadConfig 8 128 128 100 (Some "run"%string) (Some 9%Z)));
    [reflexivity | discriminate | reflexivity | reflexivity].
Defined.

(** X14. With a load path configured and the snapshot it names not on
    disk ([best.pth] without a [loadEpoch], [<loadEpoch>.pth] with one),
    [build_structure_generator] raises FileNotFoundError for that file, and
    nothing is printed. *)
Theorem build_structure_generator_missing_file (Model Weights : Type)
    (Structure_Generator : nat -> nat -> nat -> nat -> Model)
    (load_state_dict : Model -> Weights -> Model)
    (cfg : load_config) (fs : files Weights) (p : string) :
  let file :=
    match loadEpoch cfg with
    | None => ("models/" ++ p ++ "/best.pth")%string
    | Some ep => ("models/" ++ p ++ "/" ++ str_of_int ep ++ ".pth")%string
    end in
  loadPath cfg = Some p -> fs file = None ->
  build_structure_generator Structure_Generator load_state_dict cfg fs
  = ([], inl (FileNotFoundError file)).
Proof.
  intros file Hp Hfile. subst file.
  unfold build_structure_generator, torch_load. rewrite Hp.
  assert (Hassoc : forall a b : string,
            (("models/" ++ a) ++ b)%string = ("models/" ++ a ++ b)%string)
    by reflexivity.
  destruct (loadEpoch cfg) as [ep|]; rewrite Hassoc, Hfile; reflexivity.
Qed.

Lemma build_structure_generator_missing_file_witness :
  build_structure_generator (fun _ _ _ _ => 0) (fun _ (w : nat) => w)
    (mkLoadConfig 8 128 128 100 (Some "run"%string) (Some 9%Z)) (fun _ => None)
  = ([], inl (FileNotFoundError "models/run/9.pth")).
Proof.
  apply (@build_structure_generator_missing_file nat nat
           (fun _ _ _ _ => 0) (fun _ w => w)
           (mkLoadConfig 8 128 128 100 (Some "run"%string) (Some 9%Z))
           (fun _ => None) "run"%string);
    reflexivity.
Defined.

(** ** Batches *)

(** X15. A batch that [unpack_batch_novel] unpacks, [unpack_batch_fixed]
    unpacks as well, to the same image, depth and mask tensors. *)
Theorem unpack_batch_novel_then_fixed (Tensor Device : Type)
    (float : Tensor -> Tensor) (to : Tensor -> Device -> Tensor)
    (batch : dict Tensor) (device : Device)
    (input_images renderTrans depthGT maskGT : Tensor) :
  unpack_batch_novel float to batch device
  = inr (input_images, renderTrans, depthGT, maskGT) ->
  unpack_batch_fixed float to batch device
  = inr (input_images, depthGT, maskGT).
Proof.
  unfold unpack_batch_novel, unpack_batch_fixed, getitem.
  destruct (batch "inputImage"%string); [|discriminate].
  destruct (batch "targetTrans"%string); [|discriminate].
  destruct (batch "depthGT"%string); [|discriminate].
  destruct (batch "maskGT"%string); [|discriminate].
  intros [= <- _ <- <-]. reflexivity.
Qed.

Lemma unpack_batch_novel_then_fixed_witness :
  unpack_batch_fixed (fun t : nat => t) (fun t (_ : unit) => t)
    (fun _ => Some 1) tt
  = inr (1, 1, 1).
Proof.
  apply (@unpack_batch_novel_then_fixed nat unit (fun t => t) (fun t _ => t)
           (fun _ => Some 1) tt 1 1 1 1).
  reflexivity.
Defined.

(** X16. Each of the two functions raises KeyError for the first key, in
    the order of its statements, that the batch lacks, and returns when the
    batch has all its keys. *)
Theorem unpack_batch_first_missing_key (Tensor Device : Type)
    (float : Tensor -> Tensor) (to : Tensor -> Device -> Tensor)
    (batch : dict Tensor) (device : Device) :
  let lacks k := match batch k with None => true | Some _ => false end in
  let fixed := find lacks ["inputImage"; "depthGT"; "maskGT"]%string in
  let novel :=
    find lacks ["inputImage"; "targetTrans"; "depthGT"; "maskGT"]%string in
  (forall k, fixed = Some k ->
     unpack_batch_fixed float to batch device = inl (KeyError k))
  /\ (fixed = None -> exists r, unpack_batch_fixed float to batch device = inr r)
  /\ (forall k, novel = Some k ->
        unpack_batch_novel float to batch device = inl (KeyError k))
  /\ (novel = None -> exists r, unpack_batch_novel float to batch device = inr r).
Proof.
  intros lacks fixed novel. subst lacks fixed novel.
  unfold unpack_batch_novel, unpack_batch_fixed, getitem. cbn [find].
  destruct (batch "inputImage"%string);
    destruct (batch "targetTrans"%string);
    destruct (batch "depthGT"%string);
    destruct (batch "maskGT"%string);
    repeat split; try (intros k [= <-]; reflexivity);
    try discriminate; intros _; eexists; reflexivity.
Qed.

Lemma unpack_batch_first_missing_key_witness :
  unpack_batch_novel (fun t : nat => t) (fun t (_ : unit) => t)
    (fun k => if String.eqb k "inputImage" then Some 1 else None) tt
  = inl (KeyError "targetTrans").
Proof.
  pose proof (@unpack_batch_first_missing_key nat unit (fun t => t) (fun t _ => t)
                (fun k => if String.eqb k "inputImage" then Some 1 else None) tt)
    as H.
  cbv zeta in H. destruct H as (_ & _ & H & _).
  apply H. reflexivity.
Defined.

(** ** The image board *)

(** X17. [write_on_board_images_stg1] and [write_on_board_images_stg2] add
    their images in the order of their statements and stop at the first key
    that [images] lacks: the board keeps what it held, gains the images of
    the keys before that one, and the call raises KeyError for it; with all
    six keys present the six images are added. *)
Theorem write_on_board_images_until_missing (Image : Type)
    (images : dict Image) (epoch : Z) (b : board Image) :
  let outcome pairs :=
    (b ++ fst (events_until_missing images epoch pairs),
     match snd (events_until_missing images epoch pairs) with
     | Some key => inl (KeyError key)
     | None => inr tt
     end) in
  write_on_board_images_stg1 images epoch b = outcome images_stg1
  /\ write_on_board_images_stg2 images epoch b = outcome images_stg2.
Proof.
  intros outcome. subst outcome.
  unfold write_on_board_images_stg1, write_on_board_images_stg2, then_,
    add_image_of, getitem, images_stg1, images_stg2.
  cbn [events_until_missing].
  destruct (images "RGB"%string); [|now rewrite app_nil_r].
  destruct (images "depthGT"%string); [|now split].
  destruct (images "depth"%string); [|now rewrite <- !app_assoc].
  destruct (images "maskGT"%string); [|now rewrite <- !app_assoc].
  destruct (images "mask"%string); [|now rewrite <- !app_assoc].
  destruct (images "depth_mask"%string), (images "mask_rendered"%string);
    now rewrite <- !app_assoc.
Qed.

(** ** The logger *)

Lemma make_logger_keeps_handlers (PATH : string) (l : logger_state) :
  hasHandlers l = true ->
  handlers (fst (make_logger PATH l)) = handlers l
  /\ hasHandlers (fst (make_logger PATH l)) = true.
Proof.
  unfold make_logger, hasHandlers. cbn [handlers parent_has_handlers fst].
  destruct (handlers l) as [|h hs] eqn:Hh; cbn [negb].
  - intros ->. cbn [negb handlers parent_has_handlers]. split; reflexivity.
  - intros _. cbn [handlers]. split; reflexivity.
Qed.

(** X18. Once the logger has a handler, of its own or on a logger above
    it, no call of [make_logger] adds another: whatever paths later calls
    name, the handlers stay as they were. *)
Theorem make_logger_adds_no_second_handler (paths : list string)
    (l : logger_state) :
  hasHandlers l = true ->
  handlers (make_logger_each paths l) = handlers l.
Proof.
  unfold make_logger_each. revert l.
  induction paths as [|p paths IH]; intros l Hl; cbn [fold_left]; [reflexivity|].
  destruct (make_logger_keeps_handlers p l Hl) as [Hsame Hhas].
  rewrite IH by assumption. exact Hsame.
Qed.

Lemma make_logger_adds_no_second_handler_witness :
  handlers (make_logger_each ["b"; "c"]%string (mkLogger 0 ["a.log"%string] false))
  = ["a.log"%string].
Proof.
  apply (@make_logger_adds_no_second_handler ["b"; "c"]%string
           (mkLogger 0 ["a.log"%string] false)).
  reflexivity.
Defined.

Lemma make_logger_level (PATH : string) (l : logger_state) :
  level (fst (make_logger PATH l)) = DEBUG.
Proof.
  unfold make_logger. cbn [fst].
  destruct (negb _); reflexivity.
Qed.

Lemma make_logger_each_level (paths : list string) (l : logger_state) :
  level l = DEBUG -> level (make_logger_each paths l) = DEBUG.
Proof.
  unfold make_logger_each. revert l.
  induction paths as [|p paths IH]; intros l Hl; cbn [fold_left]; [assumption|].
  apply IH. apply make_logger_level.
Qed.

(** X19. In a process where neither the logger nor a logger above it has
    a handler, a series of [make_logger] calls leaves the logger with one
    handler, the file [<PATH>.log] of the first call, at level DEBUG; the
    paths of the later calls are not used. *)
Theorem make_logger_first_path_wins (PATH : string) (paths : list string)
    (l : logger_state) :
  handlers l = [] -> parent_has_handlers l = false ->
  handlers (make_logger_each (PATH :: paths) l) = [(PATH ++ ".log")%string]
  /\ level (make_logger_each (PATH :: paths) l) = DEBUG.
Proof.
  intros Hh Hp.
  assert (Hfirst : fst (make_logger PATH l)
                   = mkLogger DEBUG [(PATH ++ ".log")%string] false).
  { unfold make_logger, hasHandlers. cbn [handlers parent_has_handlers fst level].
    rewrite Hh, Hp. reflexivity. }
  change (make_logger_each (PATH :: paths) l)
    with (make_logger_each paths (fst (make_logger PATH l))).
  rewrite Hfirst. split.
  - now rewrite make_logger_adds_no_second_handler.
  - now apply make_logger_each_level.
Qed.

Lemma make_logger_first_path_wins_witness :
  handlers (make_logger_each ["run1"; "run2"]%string (mkLogger 0 [] false))
  = ["run1.log"%string]
  /\ level (make_logger_each ["run1"; "run2"]%string (mkLogger 0 [] false))
     = DEBUG.
Proof.
  apply (@make_logger_first_path_wins "run1"%string ["run2"%string]
           (mkLogger 0 [] false));
    reflexivity.
Defined.

(** ** [log_hist] *)

Lemma insert_row_perm r df : Permutation (insert_row r df) (r :: df).
Proof.
  induction df as [|x df IH]; simpl; [reflexivity|].
  destruct (Rle_dec _ _); [reflexivity|].
  rewrite IH. apply perm_swap.
Qed.

Lemma insert_row_sorted r df :
  StronglySorted (fun a b => (row_val_loss a <= row_val_loss b)%R) df ->
  StronglySorted (fun a b => (row_val_loss a <= row_val_loss b)%R)
    (insert_row r df).
Proof.
  induction df as [|x df IH]; intros Hs; simpl.
  - constructor; constructor.
  - inversion Hs as [|? ? Hs' Hx]; subst.
    destruct (Rle_dec (row_val_loss r) (row_val_loss x)) as [Hle | Hgt].
    + constructor; [assumption|]. constructor; [assumption|].
      rewrite Forall_forall in *. intros y Hy. specialize (Hx y Hy). lra.
    + constructor; [now apply IH|].
      rewrite Forall_forall in *. intros y Hy.
      apply (Permutation_in _ (insert_row_perm r df)) in Hy.
      destruct Hy as [<- | Hy]; [lra | now apply Hx].
Qed.

Lemma insertion_sort_sorts : sorts_by_val_loss insertion_sort_values.
Proof.
  intros df. unfold insertion_sort_values.
  induction df as [|r df [IHp IHs]]; simpl.
  - split; constructor.
  - split.
    + rewrite insert_row_perm. now constructor.
    + now apply insert_row_sorted.
Qed.

Lemma frame_tail_last (earlier : list hist_row) (latest : hist_row) :
  frame_tail 1 (earlier ++ [latest]) = [latest].
Proof.
  unfold frame_tail. rewrite length_app. simpl.
  replace (length earlier + 1 - 1) with (length earlier) by lia.
  rewrite skipn_app, skipn_all, Nat.sub_diag. reflexivity.
Qed.

(** The two rows [log_hist] reports for a non-empty history. *)
Lemma log_hist_rows (sort_values : list hist_row -> list hist_row)
    (df : list hist_row) (d : hist_row) :
  sorts_by_val_loss sort_values -> df <> [] ->
  exists best,
    log_hist sort_values df
    = inr [Summary [("Last"%string, last df d); ("Best"%string, best)];
           Text EmptyString]
    /\ In best df
    /\ forall r, In r df -> (row_val_loss best <= row_val_loss r)%R.
Proof.
  intros Hsort Hne. destruct (Hsort df) as [Hperm Hsorted].
  destruct (sort_values df) as [|best rest] eqn:Hs.
  { apply Permutation_nil in Hperm. congruence. }
  exists best. repeat split.
  - unfold log_hist. rewrite Hs.
    rewrite (app_removelast_last d Hne) at 1.
    rewrite frame_tail_last. reflexivity.
  - apply (Permutation_in _ Hperm). now left.
  - intros r Hr. apply (Permutation_in _ (Permutation_sym Hperm)) in Hr.
    inversion Hsorted as [|? ? _ Hall]; subst.
    destruct Hr as [<- | Hr]; [apply Rle_refl|].
    rewrite Forall_forall in Hall. now apply Hall.
Qed.

(** X20. For a non-empty history [log_hist] hands the logger a frame of
    two rows, Last and Best, and then an empty line: Last is the latest row
    and Best is a row of the history whose [val_loss] no row undercuts.  For
    an empty history it hands the logger a frame of two rows named Last and
    Best that hold no values, and then an empty line. *)
Theorem log_hist_last_and_best (sort_values : list hist_row -> list hist_row)
    (df : list hist_row) (d : hist_row) :
  sorts_by_val_loss sort_values ->
  (df = [] ->
   log_hist sort_values df
   = inr [SummaryWithoutValues ["Last"; "Best"]%string; Text EmptyString])
  /\ (df <> [] ->
      exists best,
        log_hist sort_values df
        = inr [Summary [("Last"%string, last df d); ("Best"%string, best)];
               Text EmptyString]
        /\ In best df
        /\ forall r, In r df -> (row_val_loss best <= row_val_loss r)%R).
Proof.
  intros Hsort. split.
  - intros ->. destruct (Hsort []) as [Hperm _].
    apply Permutation_sym, Permutation_nil in Hperm.
    unfold log_hist. now rewrite Hperm.
  - now apply log_hist_rows.
Qed.

Lemma log_hist_last_and_best_witness :
  ([mkRow 0 3 3; mkRow 1 2 2] = [] ->
   log_hist insertion_sort_values [mkRow 0 3 3; mkRow 1 2 2]
   = inr [SummaryWithoutValues ["Last"; "Best"]%string; Text EmptyString])
  /\ ([mkRow 0 3 3; mkRow 1 2 2] <> [] ->
      exists best,
        log_hist insertion_sort_values [mkRow 0 3 3; mkRow 1 2 2]
        = inr [Summary [("Last"%string, mkRow 1 2 2); ("Best"%string, best)];
               Text EmptyString]
        /\ In best [mkRow 0 3 3; mkRow 1 2 2]
        /\ forall r, In r [mkRow 0 3 3; mkRow 1 2 2] ->
             (row_val_loss best <= row_val_loss r)%R).
Proof.
  apply (@log_hist_last_and_best insertion_sort_values
           [mkRow 0 3 3; mkRow 1 2 2] (mkRow 0 0 0)).
  exact insertion_sort_sorts.
Defined.

(** X21. [save_best_model] writes [best.pth] exactly when the Last and
    the Best row that [log_hist] reports for the same history have the same
    [val_loss]; otherwise it writes nothing. *)
Theorem save_best_model_when_last_is_best (Model Weights : Type)
    (state_dict : Model -> Weights)
    (sort_values : list hist_row -> list hist_row)
    (model_path : string) (model : Model)
    (df : list hist_row) (latest best : hist_row) :
  sorts_by_val_loss sort_values ->
  log_hist sort_values df
  = inr [Summary [("Last"%string, latest); ("Best"%string, best)];
         Text EmptyString] ->
  (row_val_loss latest = row_val_loss best ->
   save_best_model state_dict model_path model (val_loss_frame df)
   = Ok [((model_path ++ "/best.pth")%string, state_dict model)])
  /\ (row_val_loss latest <> row_val_loss best ->
      save_best_model state_dict model_path model (val_loss_frame df) = Ok []).
Proof.
  intros Hsort Hlog.
  assert (Hne : df <> []).
  { intros ->. destruct (Hsort []) as [Hperm _].
    apply Permutation_sym, Permutation_nil in Hperm. unfold log_hist in Hlog.
    rewrite Hperm in Hlog. discriminate. }
  destruct (@log_hist_rows sort_values df latest Hsort Hne)
    as (best' & Hlog' & Hin & Hmin).
  rewrite Hlog in Hlog'. injection Hlog' as Hlast Hbest. subst best'.
  assert (Hlatest_in : In latest df).
  { rewrite Hlast. destruct df; [congruence|]. apply (@exists_last _ (h :: df)) in Hne.
    destruct Hne as (l' & a & ->). rewrite last_last. apply in_or_app. right. now left. }
  assert (Hcol : map row_val_loss df
                 = map row_val_loss (removelast df) ++ [row_val_loss latest]).
  { rewrite (app_removelast_last latest Hne) at 1. rewrite <- Hlast.
    now rewrite map_app. }
  assert (Hiff : (row_val_loss latest <= series_min (map row_val_loss df))%R
                 <-> row_val_loss latest = row_val_loss best).
  { rewrite le_series_min by (destruct df; [congruence | discriminate]). split.
    - intros Hall. apply Rle_antisym; [|now apply Hmin].
      apply Hall. now apply in_map.
    - intros Heq y Hy. apply in_map_iff in Hy as (r & <- & Hr).
      rewrite Heq. now apply Hmin. }
  assert (Hrun : save_best_model state_dict model_path model (val_loss_frame df)
                 = if Rle_dec (row_val_loss latest)
                        (series_min (map row_val_loss df))
                   then Ok [((model_path ++ "/best.pth")%string, state_dict model)]
                   else Ok []).
  { unfold save_best_model, val_loss_frame. cbn [val_loss].
    rewrite Hcol at 1. rewrite tail_last. reflexivity. }
  rewrite Hrun.
  destruct (Rle_dec (row_val_loss latest) (series_min (map row_val_loss df)));
    split; intros H; try reflexivity; tauto.
Qed.

Lemma save_best_model_when_last_is_best_witness :
  save_best_model (fun _ : unit => tt) "models/run" tt
    (val_loss_frame [mkRow 0 3 3; mkRow 1 2 2; mkRow 2 1 1])
  = Ok [("models/run/best.pth"%string, tt)].
Proof.
  apply (@save_best_model_when_last_is_best unit unit (fun _ => tt)
           insertion_sort_values "models/run"%string tt
           [mkRow 0 3 3; mkRow 1 2 2; mkRow 2 1 1] (mkRow 2 1 1) (mkRow 2 1 1)).
  - exact insertion_sort_sorts.
  - unfold log_hist, insertion_sort_values. cbn [fold_right insert_row row_val_loss].
    repeat (destruct (Rle_dec _ _); try lra; cbn [insert_row row_val_loss]).
    reflexivity.
  - reflexivity.
Defined.
